(** * qibo custom TensorFlow operators: registration and the InitialState kernel

    A shallow embedding of
    - [cc/kernels/initial_state_kernels.cc] (the CPU functor, the
      [InitialStateOp] kernel class and its kernel registrations), and
    - [cc/ops/custom_ops.cc] (the six operator registrations),
    together with the part of the host runtime (tensors, kernel context,
    operator and kernel registries, shape inference) that those two files
    call into.

    Amplitudes are pairs of IEEE-754 values ([spec_float]), tensor buffers
    live in a store indexed by buffer identity, and a kernel is a
    computation in a state-and-fault monad over that store. *)

From Stdlib Require Import ZArith SpecFloat Ascii String.
From stdpp Require Import base option list gmap strings.

(** ** State-and-fault monad *)

(** What the C++ program does when it leaves defined behaviour or trips a
    runtime check: an access outside a buffer, or a failed [CHECK]. *)
Inductive Fault : Type :=
  | OutOfBounds
  | CheckFailed.

Definition M (S A : Type) : Type := S -> Fault + (A * S).

Definition ret {S A} (a : A) : M S A := fun s => inr (a, s).

Definition bind {S A B} (m : M S A) (k : A -> M S B) : M S B :=
  fun s => match m s with
           | inl f => inl f
           | inr (a, s') => k a s'
           end.

Definition fault {S A} (f : Fault) : M S A := fun _ => inl f.

Declare Scope kernel_scope.
Delimit Scope kernel_scope with kernel.
Notation "x <- m ;; k" := (bind m (fun x => k))
  (at level 100, m at next level, right associativity) : kernel_scope.
Notation "m ;;; k" := (bind m (fun _ => k))
  (at level 100, right associativity) : kernel_scope.
Local Open Scope kernel_scope.

(** ** The host runtime: element types, tensors, memory *)

Module tensorflow.

(** The element types the registration strings can name. *)
Inductive DataType : Type :=
  | DT_FLOAT | DT_DOUBLE | DT_HALF
  | DT_INT8 | DT_INT16 | DT_INT32 | DT_INT64
  | DT_UINT8 | DT_BOOL | DT_STRING
  | DT_COMPLEX64 | DT_COMPLEX128.

#[global] Instance DataType_eq_dec : EqDecision DataType.
Proof. solve_decision. Defined.

(** The two instantiations of the template parameter [T] that the sources
    name: [complex64] is [std::complex<float>], [complex128] is
    [std::complex<double>]. *)
Inductive ctype : Type := complex64 | complex128.

#[global] Instance ctype_eq_dec : EqDecision ctype.
Proof. solve_decision. Defined.

(** [DataTypeToEnum<T>::v()] *)
Definition DataTypeToEnum (T : ctype) : DataType :=
  match T with
  | complex64 => DT_COMPLEX64
  | complex128 => DT_COMPLEX128
  end.

(** Precision and exponent bound of the component type of [T]
    (binary32 and binary64). *)
Definition prec (T : ctype) : Z :=
  match T with complex64 => 24%Z | complex128 => 53%Z end.

Definition emax (T : ctype) : Z :=
  match T with complex64 => 128%Z | complex128 => 1024%Z end.

#[global] Instance spec_float_eq_dec : EqDecision spec_float.
Proof. solve_decision. Defined.

(** A complex amplitude: real and imaginary component. Any bit pattern is
    a possible stored value, NaN and infinities included. *)
Record complex : Type := Complex { real : spec_float; imag : spec_float }.

#[global] Instance complex_eq_dec : EqDecision complex.
Proof. solve_decision. Defined.

(** Conversion of an integer literal to the component type of [T]. *)
Definition of_int (T : ctype) (z : Z) : spec_float :=
  binary_normalize (prec T) (emax T) z 0 false.

(** The constructor call [T(re, im)] on integer literals. *)
Definition T_ (T : ctype) (re im : Z) : complex :=
  {| real := of_int T re; imag := of_int T im |}.

(** The amplitude (0,0): both components positive zero. *)
Definition czero : complex :=
  {| real := S754_zero false; imag := S754_zero false |}.

(** Buffer identities and the store of live buffers. *)
Definition loc : Type := positive.

Abbreviation heap := (gmap positive (list complex)).

(** A [T*]: a buffer and an element offset into it. *)
Record ptr : Type := Ptr { p_buf : loc; p_off : nat }.

(** [p[i]] as an lvalue *)
Definition index (p : ptr) (i : nat) : ptr :=
  {| p_buf := p_buf p; p_off := p_off p + i |}.

(** [*p = v]. Writing outside the live extent of a buffer has no defined
    behaviour; the embedding reports it as [OutOfBounds]. *)
Definition store (p : ptr) (v : complex) : M heap unit :=
  fun h =>
    match h !! p_buf p with
    | Some b =>
        if decide (p_off p < length b)
        then inr (tt, <[p_buf p := <[p_off p := v]> b]> h)
        else inl OutOfBounds
    | None => inl OutOfBounds
    end.

(** A tensor handle: element type, shape, and the buffer it refers to.
    Copying a handle shares the buffer. *)
Record Tensor : Type :=
  { dtype : DataType; shape : list nat; buf : loc }.

#[global] Instance Tensor_eq_dec : EqDecision Tensor.
Proof. solve_decision. Defined.

Definition NumElements (t : Tensor) : nat := foldr Nat.mul 1 (shape t).

(** [t.flat<T>()]: a rank-1 view of all elements; the runtime [CHECK]s that
    the tensor's element type is [T]. *)
Record TensorMap : Type := { data : ptr; dimension : nat }.

Definition flat {S} (T : ctype) (t : Tensor) : M S TensorMap :=
  if decide (dtype t = DataTypeToEnum T)
  then ret {| data := {| p_buf := buf t; p_off := 0 |};
              dimension := NumElements t |}
  else fault CheckFailed.

(** The kernel context: the input handles, the output slots, and the
    memory the handles refer to. *)
Record OpKernelContext : Type :=
  { inputs : list Tensor;
    outputs : list (option Tensor);
    mem : heap }.

(** [context->input(i)] *)
Definition input (i : nat) : M OpKernelContext Tensor :=
  fun c => match inputs c !! i with
           | Some t => inr (t, c)
           | None => inl CheckFailed
           end.

(** [context->set_output(i, t)]: slot [i] now holds a handle on [t]'s
    buffer. *)
Definition set_output (i : nat) (t : Tensor) : M OpKernelContext unit :=
  fun c => if decide (i < length (outputs c))
           then inr (tt, {| inputs := inputs c;
                            outputs := <[i := Some t]> (outputs c);
                            mem := mem c |})
           else inl CheckFailed.

(** Run a computation on memory inside a kernel context. *)
Definition on_mem {A} (m : M heap A) : M OpKernelContext A :=
  fun c => match m (mem c) with
           | inl f => inl f
           | inr (a, h) => inr (a, {| inputs := inputs c;
                                      outputs := outputs c;
                                      mem := h |})
           end.

(** Devices. *)
Inductive DeviceType : Type := DEVICE_CPU | DEVICE_GPU.

#[global] Instance DeviceType_eq_dec : EqDecision DeviceType.
Proof. solve_decision. Defined.

(** [Eigen::ThreadPoolDevice] and [Eigen::GpuDevice] *)
Record ThreadPoolDevice : Type := { numThreads : nat }.
Record GpuDevice : Type := { stream : nat }.

Definition CPUDevice : Type := ThreadPoolDevice.
Definition GPUDevice : Type := GpuDevice.

(** ** [initial_state_kernels.cc] *)

Module functor.

(** [template <typename Device, typename T> struct InitialStateFunctor]:
    one call operator per device, taking the device and the [T*]. *)
Class InitialStateFunctor (Device : Type) : Type :=
  functor_call : ctype -> Device -> ptr -> M heap unit.

(** CPU specialization:
    [void operator()(const CPUDevice &d, T *inout) { inout[0] = T(1, 0); }] *)
#[global] Instance InitialStateFunctor_CPU : InitialStateFunctor CPUDevice :=
  fun T d inout => store (index inout 0) (T_ T 1 0).

Section InitialStateOp.
Context {Device : Type} `{!InitialStateFunctor Device}.
Variable T : ctype.

(** [InitialStateOp<Device, T>::Compute]; [d] is
    [context->eigen_device<Device>()]. *)
Definition Compute (d : Device) : M OpKernelContext unit :=
  input_tensor <- input 0 ;;
  view <- flat T input_tensor ;;
  (on_mem (functor_call T d (data view)) ;;;
   set_output 0 input_tensor).
End InitialStateOp.

(** The kernel classes the registrations instantiate. *)
Inductive KernelClass : Type :=
  | InitialStateOp_CPU (T : ctype)
  | InitialStateOp_GPU (T : ctype).

#[global] Instance KernelClass_eq_dec : EqDecision KernelClass.
Proof. solve_decision. Defined.

(** [Name(n).Device(d).TypeConstraint<T>(a)] paired with a kernel class *)
Record KernelRegistration : Type :=
  { kernel_op : string;
    kernel_device : DeviceType;
    kernel_constraint : string * DataType;
    kernel_class : KernelClass }.

Definition REGISTER_CPU (T : ctype) : list KernelRegistration :=
  [ {| kernel_op := "InitialState";
       kernel_device := DEVICE_CPU;
       kernel_constraint := ("T", DataTypeToEnum T);
       kernel_class := InitialStateOp_CPU T |} ].

Definition REGISTER_GPU (T : ctype) : list KernelRegistration :=
  [ {| kernel_op := "InitialState";
       kernel_device := DEVICE_GPU;
       kernel_constraint := ("T", DataTypeToEnum T);
       kernel_class := InitialStateOp_GPU T |} ].

(** The registrations of the translation unit. [GOOGLE_CUDA] is the
    preprocessor macro: [None] when undefined, [Some v] when defined with
    value [v]; the GPU block is under [#ifdef GOOGLE_CUDA]. *)
Definition kernel_registrations (GOOGLE_CUDA : option Z)
  : list KernelRegistration :=
  REGISTER_CPU complex64 ++
  REGISTER_CPU complex128 ++
  match GOOGLE_CUDA with
  | Some _ => REGISTER_GPU complex64 ++ REGISTER_GPU complex128
  | None => []
  end.

(** Lines 1-3: [EIGEN_USE_GPU] is defined under [#if GOOGLE_CUDA], which
    holds when the macro is defined with a non-zero value. *)
Definition EIGEN_USE_GPU (GOOGLE_CUDA : option Z) : bool :=
  match GOOGLE_CUDA with
  | Some v => negb (Z.eqb v 0)
  | None => false
  end.

End functor.

(** ** Operator registration: the builder and its specification strings *)

Inductive Code : Type := INVALID_ARGUMENT | NOT_FOUND.

#[global] Instance Code_eq_dec : EqDecision Code.
Proof. solve_decision. Defined.

Inductive Status : Type :=
  | OK
  | Error (code : Code).

#[global] Instance Status_eq_dec : EqDecision Status.
Proof. solve_decision. Defined.

Module shape_inference.

(** A dimension, and a shape: [None] is "unknown". *)
Definition DimensionHandle : Type := option nat.
Definition ShapeHandle : Type := option (list DimensionHandle).

Record InferenceContext : Type :=
  { inputs_ : list ShapeHandle;
    outputs_ : list ShapeHandle }.

(** [c->input(i)] *)
Definition input (i : nat) : M InferenceContext ShapeHandle :=
  fun c => match inputs_ c !! i with
           | Some s => inr (s, c)
           | None => inl OutOfBounds
           end.

(** [c->set_output(i, s)] *)
Definition set_output (i : nat) (s : ShapeHandle) : M InferenceContext unit :=
  fun c => if decide (i < length (outputs_ c))
           then inr (tt, {| inputs_ := inputs_ c;
                            outputs_ := <[i := s]> (outputs_ c) |})
           else inl OutOfBounds.

End shape_inference.

Definition ShapeFn : Type := M shape_inference.InferenceContext Status.

(** [DataTypeFromString] *)
Definition DataType_names : list (string * DataType) :=
  [ ("float", DT_FLOAT); ("float32", DT_FLOAT);
    ("double", DT_DOUBLE); ("float64", DT_DOUBLE);
    ("half", DT_HALF); ("float16", DT_HALF);
    ("int8", DT_INT8); ("int16", DT_INT16);
    ("int32", DT_INT32); ("int64", DT_INT64);
    ("uint8", DT_UINT8); ("bool", DT_BOOL); ("string", DT_STRING);
    ("complex64", DT_COMPLEX64); ("complex128", DT_COMPLEX128) ].

Definition assoc {A} (key : string) (table : list (string * A)) : option A :=
  snd <$> List.find (fun e => String.eqb (fst e) key) table.

Definition DataTypeFromString (s : string) : option DataType :=
  assoc s DataType_names.

(** The builder behind [REGISTER_OP(name)]: each method records its
    specification string; [Finalize] parses them. *)
Record OpDefBuilder : Type :=
  { b_name : string;
    b_attrs : list string;
    b_inputs : list string;
    b_outputs : list string;
    b_shape_fn : option ShapeFn }.

Definition REGISTER_OP (name : string) : OpDefBuilder :=
  {| b_name := name; b_attrs := []; b_inputs := []; b_outputs := [];
     b_shape_fn := None |}.

Definition Attr (spec : string) (b : OpDefBuilder) : OpDefBuilder :=
  {| b_name := b_name b; b_attrs := b_attrs b ++ [spec];
     b_inputs := b_inputs b; b_outputs := b_outputs b;
     b_shape_fn := b_shape_fn b |}.

Definition Input (spec : string) (b : OpDefBuilder) : OpDefBuilder :=
  {| b_name := b_name b; b_attrs := b_attrs b;
     b_inputs := b_inputs b ++ [spec]; b_outputs := b_outputs b;
     b_shape_fn := b_shape_fn b |}.

Definition Output (spec : string) (b : OpDefBuilder) : OpDefBuilder :=
  {| b_name := b_name b; b_attrs := b_attrs b;
     b_inputs := b_inputs b; b_outputs := b_outputs b ++ [spec];
     b_shape_fn := b_shape_fn b |}.

Definition SetShapeFn (fn : ShapeFn) (b : OpDefBuilder) : OpDefBuilder :=
  {| b_name := b_name b; b_attrs := b_attrs b;
     b_inputs := b_inputs b; b_outputs := b_outputs b;
     b_shape_fn := Some fn |}.

(** Method chaining: [b .> Attr "..."] is [b.Attr("...")]. *)
Notation "b .> f" := (f b) (at level 40, left associativity, only parsing).

(** The finalized operator definition. *)
Inductive AttrType : Type :=
  | AttrInt | AttrFloat | AttrBool | AttrString | AttrShape
  | AttrDType (allowed : option (list DataType)).

#[global] Instance AttrType_eq_dec : EqDecision AttrType.
Proof. solve_decision. Defined.

Record AttrDef : Type := { attr_name : string; attr_type : AttrType }.

#[global] Instance AttrDef_eq_dec : EqDecision AttrDef.
Proof. solve_decision. Defined.

(** The type of an argument: a fixed element type, or the name of a type
    attribute. *)
Inductive ArgType : Type :=
  | ArgFixed (dt : DataType)
  | ArgTypeAttr (attr : string).

#[global] Instance ArgType_eq_dec : EqDecision ArgType.
Proof. solve_decision. Defined.

Record ArgDef : Type := { arg_name : string; arg_type : ArgType }.

#[global] Instance ArgDef_eq_dec : EqDecision ArgDef.
Proof. solve_decision. Defined.

Record OpDef : Type :=
  { op_name : string;
    op_attr : list AttrDef;
    input_arg : list ArgDef;
    output_arg : list ArgDef;
    shape_fn : option ShapeFn }.

(** Scanning of specification strings. *)
Definition is_space (c : ascii) : bool := Ascii.eqb c " ".

Fixpoint skip_spaces (s : list ascii) : list ascii :=
  match s with
  | c :: s' => if is_space c then skip_spaces s' else s
  | [] => []
  end.

Definition trim (s : list ascii) : list ascii :=
  rev (skip_spaces (rev (skip_spaces s))).

(** Split at the first occurrence of [sep]. *)
Fixpoint break_at (sep : ascii) (s : list ascii)
  : option (list ascii * list ascii) :=
  match s with
  | [] => None
  | c :: s' =>
      if Ascii.eqb c sep then Some ([], s')
      else match break_at sep s' with
           | Some (before, after) => Some (c :: before, after)
           | None => None
           end
  end.

Fixpoint split_on (sep : ascii) (s : list ascii) : list (list ascii) :=
  match s with
  | [] => [[]]
  | c :: s' =>
      if Ascii.eqb c sep then [] :: split_on sep s'
      else match split_on sep s' with
           | w :: ws => (c :: w) :: ws
           | [] => [[c]]
           end
  end.

Definition AttrType_names : list (string * AttrType) :=
  [ ("int", AttrInt); ("float", AttrFloat); ("bool", AttrBool);
    ("string", AttrString); ("shape", AttrShape);
    ("type", AttrDType None) ].

(** The right-hand side of an attribute specification: a braced list of
    element types restricts a type attribute to those types. *)
Definition parse_attr_type (s : list ascii) : option AttrType :=
  match s with
  | "{"%char :: rest =>
      match rev rest with
      | "}"%char :: inner =>
          allowed ← mapM (fun w => DataTypeFromString
                                      (string_of_list_ascii (trim w)))
                          (split_on "," (rev inner)) ;
          Some (AttrDType (Some allowed))
      | _ => None
      end
  | _ => assoc (string_of_list_ascii s) AttrType_names
  end.

Definition FinalizeAttr (spec : string) : option AttrDef :=
  '(name, rest) ← break_at ":" (list_ascii_of_string spec) ;
  ty ← parse_attr_type (trim rest) ;
  Some {| attr_name := string_of_list_ascii (trim name); attr_type := ty |}.

Definition is_type_attr (attrs : list AttrDef) (name : string) : bool :=
  match List.find (fun a => String.eqb (attr_name a) name) attrs with
  | Some {| attr_type := AttrDType _ |} => true
  | _ => false
  end.

Definition FinalizeInputOrOutput (attrs : list AttrDef) (spec : string)
  : option ArgDef :=
  '(name, rest) ← break_at ":" (list_ascii_of_string spec) ;
  let ty := string_of_list_ascii (trim rest) in
  arg_ty ← match DataTypeFromString ty with
            | Some dt => Some (ArgFixed dt)
            | None => if is_type_attr attrs ty
                      then Some (ArgTypeAttr ty) else None
            end ;
  Some {| arg_name := string_of_list_ascii (trim name); arg_type := arg_ty |}.

(** Attributes are finalized first, so an argument may refer to an
    attribute declared after it in the chain. *)
Definition Finalize (b : OpDefBuilder) : option OpDef :=
  attrs ← mapM FinalizeAttr (b_attrs b) ;
  ins ← mapM (FinalizeInputOrOutput attrs) (b_inputs b) ;
  outs ← mapM (FinalizeInputOrOutput attrs) (b_outputs b) ;
  Some {| op_name := b_name b; op_attr := attrs;
          input_arg := ins; output_arg := outs;
          shape_fn := b_shape_fn b |}.

End tensorflow.

(** ** [custom_ops.cc] *)

Module custom_ops.
Import tensorflow.

(** Both shape lambdas have the body
    [c->set_output(0, c->input(0)); return Status::OK();] *)
Definition InitialState_op : OpDefBuilder :=
  REGISTER_OP "InitialState"
    .> Attr "T: {complex64, complex128}"
    .> Input "in: T"
    .> Output "out: T"
    .> SetShapeFn (s <- shape_inference.input 0 ;;
                   (shape_inference.set_output 0 s ;;;
                    ret OK)).

Definition REGISTER_GATE_OP (NAME : string) : OpDefBuilder :=
  REGISTER_OP NAME
    .> Attr "T: {complex64, complex128}"
    .> Input "state: T"
    .> Input "gate: T"
    .> Input "controls: int32"
    .> Attr "nqubits: int"
    .> Attr "target: int"
    .> Output "out: T"
    .> SetShapeFn (s <- shape_inference.input 0 ;;
                   (shape_inference.set_output 0 s ;;;
                    ret OK)).

(** The names the gate macro is expanded with, in source order. *)
Definition gate_ops : list string :=
  [ "ApplyGate"; "ApplyX"; "ApplyY"; "ApplyZ"; "ApplyZPow" ].

(** All registrations of the translation unit, in source order. *)
Definition op_registrations : list OpDefBuilder :=
  InitialState_op :: (REGISTER_GATE_OP <$> gate_ops).

Definition registered_names : list string := b_name <$> op_registrations.

End custom_ops.

(** ** The host runtime: operator lookup, type checking, dispatch *)

Module runtime.
Import tensorflow tensorflow.functor custom_ops.

(** [OpRegistry::LookUp] *)
Definition LookUp (name : string) : option OpDef :=
  b ← List.find (fun b => String.eqb (b_name b) name) op_registrations ;
  Finalize b.

(** The element type of an argument under a binding of the type
    attributes. *)
Definition arg_dtype (env : gmap string DataType) (a : ArgDef)
  : option DataType :=
  match arg_type a with
  | ArgFixed dt => Some dt
  | ArgTypeAttr attr => env !! attr
  end.

(** Bind the type attributes from the element types of the actual inputs;
    an input that disagrees with its declared type is an invalid
    argument, and so is a wrong number of inputs. *)
Fixpoint bind_types (args : list ArgDef) (tys : list DataType)
    (env : gmap string DataType) : Status + gmap string DataType :=
  match args, tys with
  | [], [] => inr env
  | a :: args', ty :: tys' =>
      match arg_type a with
      | ArgFixed dt =>
          if decide (dt = ty) then bind_types args' tys' env
          else inl (Error INVALID_ARGUMENT)
      | ArgTypeAttr attr =>
          match env !! attr with
          | None => bind_types args' tys' (<[attr := ty]> env)
          | Some ty' =>
              if decide (ty' = ty) then bind_types args' tys' env
              else inl (Error INVALID_ARGUMENT)
          end
      end
  | _, _ => inl (Error INVALID_ARGUMENT)
  end.

(** A type attribute must be bound, and bound to an allowed type when the
    attribute lists allowed types. *)
Definition attr_ok (env : gmap string DataType) (a : AttrDef) : bool :=
  match attr_type a with
  | AttrDType allowed =>
      match env !! attr_name a with
      | Some ty =>
          match allowed with
          | Some tys => bool_decide (ty ∈ tys)
          | None => true
          end
      | None => false
      end
  | _ => true
  end.

Definition TypeCheck (op : OpDef) (tys : list DataType)
  : Status + gmap string DataType :=
  match bind_types (input_arg op) tys ∅ with
  | inl e => inl e
  | inr env =>
      if forallb (attr_ok env) (op_attr op) then inr env
      else inl (Error INVALID_ARGUMENT)
  end.

(** An operator's type parameters, and the attributes that carry a value. *)
Definition is_type_param (a : AttrDef) : bool :=
  match attr_type a with
  | AttrDType _ => true
  | _ => false
  end.

Definition type_params (op : OpDef) : list AttrDef :=
  List.filter is_type_param (op_attr op).

Definition value_attrs (op : OpDef) : list AttrDef :=
  List.filter (fun a => negb (is_type_param a)) (op_attr op).

(** Kernel lookup: the first registration for the operator and device
    whose type constraint agrees with the binding. *)
Definition kernel_matches (name : string) (dev : DeviceType)
    (env : gmap string DataType) (k : KernelRegistration) : bool :=
  String.eqb (kernel_op k) name
  && bool_decide (kernel_device k = dev)
  && bool_decide (env !! fst (kernel_constraint k)
                  = Some (snd (kernel_constraint k))).

Definition FindKernel (GOOGLE_CUDA : option Z) (name : string)
    (dev : DeviceType) (env : gmap string DataType) : option KernelClass :=
  kernel_class <$>
    List.find (kernel_matches name dev env) (kernel_registrations GOOGLE_CUDA).

(** How an invocation ends: rejected before any kernel ran (memory as it
    was), aborted by a fault inside the kernel, or finished with the
    output slots and the memory the kernel left. *)
Inductive Outcome : Type :=
  | Rejected (s : Status) (h : heap)
  | Aborted (f : Fault)
  | Finished (outs : list (option Tensor)) (h : heap).

(** The device an invocation is placed on. The GPU functor is declared
    [extern template] and defined in another translation unit, so a GPU
    device comes with the functor that was linked for it. *)
Inductive Device : Type :=
  | OnCPU (d : CPUDevice)
  | OnGPU (d : GPUDevice) (F : InitialStateFunctor GPUDevice).

Definition device_type (dev : Device) : DeviceType :=
  match dev with
  | OnCPU _ => DEVICE_CPU
  | OnGPU _ _ => DEVICE_GPU
  end.

(** Instantiate a kernel class on the device it was registered for. *)
Definition run_kernel (k : KernelClass) (dev : Device)
  : M OpKernelContext unit :=
  match k, dev with
  | InitialStateOp_CPU T, OnCPU d => Compute T d
  | InitialStateOp_GPU T, OnGPU d F => @Compute GPUDevice F T d
  | _, _ => fault CheckFailed
  end.

(** One invocation of a named operation on a device: operator lookup, type
    check, kernel lookup, and only then the kernel. *)
Definition Execute (GOOGLE_CUDA : option Z) (dev : Device) (name : string)
    (ins : list Tensor) (h : heap) : Outcome :=
  match LookUp name with
  | None => Rejected (Error NOT_FOUND) h
  | Some op =>
      match TypeCheck op (dtype <$> ins) with
      | inl e => Rejected e h
      | inr env =>
          match FindKernel GOOGLE_CUDA name (device_type dev) env with
          | None => Rejected (Error NOT_FOUND) h
          | Some k =>
              match run_kernel k dev
                      {| inputs := ins;
                         outputs := replicate (length (output_arg op)) None;
                         mem := h |} with
              | inl f => Aborted f
              | inr (_, c) => Finished (outputs c) (mem c)
              end
          end
      end
  end.

End runtime.

Import tensorflow tensorflow.functor custom_ops runtime.

(** ** Sample devices, tensors and contexts *)

Module samples.

Definition cpu0 : CPUDevice := {| numThreads := 4 |}.

(** A stored value that is no number at all. *)
Definition garbage : complex :=
  {| real := S754_nan; imag := S754_infinity true |}.

(** A rank-1 tensor of [n] elements of type [T] on buffer 1. *)
Definition state_tensor (T : ctype) (n : nat) : Tensor :=
  {| dtype := DataTypeToEnum T; shape := [n]; buf := 1%positive |}.

(** A kernel context with one input, one empty output slot, and the
    input's buffer as the only live buffer. *)
Definition context_of (t : Tensor) (b : list complex) : OpKernelContext :=
  {| inputs := [t]; outputs := [None]; mem := {[ buf t := b ]} |}.

End samples.

(** ** The ground state *)

(** The amplitude vector of [n] qubits is in the ground state when element
    0 is (1,0) and every other element is (0,0). *)
Definition ground_state (T : ctype) (n : nat) (b : list complex) : Prop :=
  b !! 0 = Some (T_ T 1 0) /\
  forall i, 0 < i < 2 ^ n -> b !! i = Some czero.

(** * Properties *)

(** ** The CPU functor *)

Section CPUFunctor.
Variable T : ctype.
Variable d : CPUDevice.

(** On a live, non-empty buffer the functor overwrites element 0 and
    nothing else. *)
Lemma functor_CPU_writes (h : heap) (l : loc) (b : list complex) :
  h !! l = Some b ->
  0 < length b ->
  functor_call T d (Ptr l 0) h
  = inr (tt, <[l := <[0 := T_ T 1 0]> b]> h).
Proof.
  intros Hl Hlen.
  unfold functor_call, InitialStateFunctor_CPU, store, index; simpl.
  rewrite Hl. destruct (decide (0 < length b)) as [_|Hn]; [reflexivity | lia].
Qed.

(** On an empty buffer the write has nowhere to go. *)
Lemma functor_CPU_empty (h : heap) (l : loc) :
  h !! l = Some [] ->
  functor_call T d (Ptr l 0) h = inl OutOfBounds.
Proof.
  intros Hl.
  unfold functor_call, InitialStateFunctor_CPU, store, index; simpl.
  rewrite Hl. reflexivity.
Qed.
End CPUFunctor.

(** The values the constructor call produces: [T(1, 0)] is 1.0 with a
    positive-zero imaginary part, in the precision of [T]; [T(0, 0)] is the
    amplitude (0,0). *)
Example T_one_complex64 :
  T_ complex64 1 0
  = {| real := S754_finite false 8388608 (-23); imag := S754_zero false |}.
Proof. reflexivity. Qed.

Example T_one_complex128 :
  T_ complex128 1 0
  = {| real := S754_finite false 4503599627370496 (-52);
       imag := S754_zero false |}.
Proof. reflexivity. Qed.

Lemma T_zero_zero (T : ctype) : T_ T 0 0 = czero.
Proof. destruct T; reflexivity. Qed.

(** ** The kernel class *)

Section Kernel.
Context {Device : Type} `{!InitialStateFunctor Device}.
Variable T : ctype.
Variable d : Device.

(** [Compute] is the functor run on the buffer of input 0, followed by
    publishing that same handle as output 0. *)
Lemma Compute_unfold (c : OpKernelContext) (t : Tensor) :
  inputs c !! 0 = Some t ->
  dtype t = DataTypeToEnum T ->
  Compute T d c =
  match functor_call T d (Ptr (buf t) 0) (mem c) with
  | inl f => inl f
  | inr (_, h') =>
      if decide (0 < length (outputs c))
      then inr (tt, {| inputs := inputs c;
                       outputs := <[0 := Some t]> (outputs c);
                       mem := h' |})
      else inl CheckFailed
  end.
Proof.
  intros Hin Hty.
  unfold Compute, bind, input, flat, on_mem, set_output, ret; simpl.
  rewrite Hin. destruct (decide (dtype t = DataTypeToEnum T)); [|done].
  simpl. destruct (functor_call T d _ (mem c)) as [f|[[] h']]; reflexivity.
Qed.

(** A run that returns had an input 0 of element type [T], got through the
    functor, and found an output slot. *)
Lemma Compute_inv (c c' : OpKernelContext) :
  Compute T d c = inr (tt, c') ->
  exists t h',
    inputs c !! 0 = Some t /\
    dtype t = DataTypeToEnum T /\
    functor_call T d (Ptr (buf t) 0) (mem c) = inr (tt, h') /\
    0 < length (outputs c) /\
    c' = {| inputs := inputs c;
            outputs := <[0 := Some t]> (outputs c);
            mem := h' |}.
Proof.
  unfold Compute, bind, input, flat, on_mem, set_output, ret, fault; simpl.
  destruct (inputs c !! 0) as [t|] eqn:Hin; [|discriminate].
  destruct (decide (dtype t = DataTypeToEnum T)) as [Hty|]; [|discriminate].
  simpl.
  destruct (functor_call T d _ (mem c)) as [f|[[] h']] eqn:Hf; [discriminate|].
  simpl. destruct (decide (0 < length (outputs c))); [|discriminate].
  intros [= <-]. exists t, h'. auto.
Qed.
End Kernel.

(** The CPU kernel on a well-formed context. *)
Lemma Compute_CPU_spec (T : ctype) (d : CPUDevice) (c : OpKernelContext)
    (t : Tensor) (b : list complex) :
  inputs c !! 0 = Some t ->
  dtype t = DataTypeToEnum T ->
  mem c !! buf t = Some b ->
  0 < length b ->
  0 < length (outputs c) ->
  Compute T d c
  = inr (tt, {| inputs := inputs c;
                outputs := <[0 := Some t]> (outputs c);
                mem := <[buf t := <[0 := T_ T 1 0]> b]> (mem c) |}).
Proof.
  intros Hin Hty Hb Hlen Hout.
  rewrite (Compute_unfold T d c t Hin Hty).
  rewrite (functor_CPU_writes T d _ _ b Hb Hlen).
  destruct (decide (0 < length (outputs c))); [reflexivity | lia].
Qed.

(** The CPU kernel creates no buffer and frees none. *)
Lemma Compute_CPU_no_allocation (T : ctype) (d : CPUDevice)
    (c c' : OpKernelContext) :
  Compute T d c = inr (tt, c') -> dom (mem c') = dom (mem c).
Proof.
  intros Hrun.
  destruct (Compute_inv T d c c' Hrun) as (t & h' & _ & _ & Hf & _ & ->).
  simpl. revert Hf.
  unfold functor_call, InitialStateFunctor_CPU, store, index; simpl.
  destruct (mem c !! buf t) as [b|] eqn:Hb; [|discriminate].
  case_decide; [|discriminate]. intros [= <-].
  rewrite dom_insert_L. apply (elem_of_dom_2 (D := gset positive)) in Hb.
  apply set_eq. intros l. rewrite elem_of_union, elem_of_singleton.
  split; [intros [->|Hl]; assumption | auto].
Qed.

(** ** The ground-state initializer *)

(** C1, as stated, fails: on a one-qubit vector whose two elements hold
    garbage, the CPU kernel returns with element 1 still holding the
    garbage, so the result is not the ground state. *)
Lemma InitialState_ground_state_counterexample :
  let t := samples.state_tensor complex64 2 in
  let b := [samples.garbage; samples.garbage] in
  length b = 2 ^ 1 /\
  exists c' b',
    Compute complex64 samples.cpu0 (samples.context_of t b) = inr (tt, c') /\
    mem c' !! buf t = Some b' /\
    b' !! 1 = Some samples.garbage /\
    ~ ground_state complex64 1 b'.
Proof.
  split; [reflexivity|].
  eexists _, [T_ complex64 1 0; samples.garbage].
  split; [reflexivity|]. split; [reflexivity|]. split; [reflexivity|].
  intros [_ Hrest]. specialize (Hrest 1 ltac:(simpl; lia)). discriminate Hrest.
Qed.

(** C1, amended: for every qubit count n >= 1 and every amplitude vector of
    length 2^n with arbitrary prior contents, the CPU InitialState kernel
    returns with amplitude[0] equal to (1,0) and every amplitude[i], i > 0,
    equal to its prior value; the result is the ground state exactly when
    the prior contents were (0,0) at every i > 0. *)
Theorem InitialState_sets_first_amplitude
    (T : ctype) (d : CPUDevice) (c : OpKernelContext) (t : Tensor)
    (b : list complex) (n : nat) :
  1 <= n ->
  inputs c !! 0 = Some t ->
  dtype t = DataTypeToEnum T ->
  mem c !! buf t = Some b ->
  length b = 2 ^ n ->
  0 < length (outputs c) ->
  exists c' b',
    Compute T d c = inr (tt, c') /\
    mem c' !! buf t = Some b' /\
    length b' = 2 ^ n /\
    b' !! 0 = Some (T_ T 1 0) /\
    (forall i, 0 < i -> b' !! i = b !! i) /\
    (ground_state T n b' <->
     forall i, 0 < i < 2 ^ n -> b !! i = Some czero).
Proof.
  intros Hn Hin Hty Hb Hlen Hout.
  assert (0 < length b) as Hpos.
  { rewrite Hlen. pose proof (Nat.pow_nonzero 2 n). lia. }
  exists {| inputs := inputs c;
            outputs := <[0 := Some t]> (outputs c);
            mem := <[buf t := <[0 := T_ T 1 0]> b]> (mem c) |},
         (<[0 := T_ T 1 0]> b).
  assert (forall i, 0 < i -> <[0 := T_ T 1 0]> b !! i = b !! i) as Hframe.
  { intros i Hi. apply list_lookup_insert_ne. lia. }
  assert (<[0 := T_ T 1 0]> b !! 0 = Some (T_ T 1 0)) as Hzero.
  { apply list_lookup_insert_eq. exact Hpos. }
  split; [exact (Compute_CPU_spec T d c t b Hin Hty Hb Hpos Hout)|].
  split; [simpl; apply lookup_insert_eq|].
  split; [rewrite length_insert; exact Hlen|].
  split; [exact Hzero|].
  split; [exact Hframe|].
  unfold ground_state. split.
  - intros [_ Hrest] i Hi. rewrite <- Hframe by lia. apply Hrest, Hi.
  - intros Hprior. split; [exact Hzero|].
    intros i Hi. rewrite Hframe by lia. apply Hprior, Hi.
Qed.

Lemma InitialState_sets_first_amplitude_witness :
  let t := samples.state_tensor complex128 2 in
  let b := [samples.garbage; czero] in
  exists c' b',
    Compute complex128 samples.cpu0 (samples.context_of t b) = inr (tt, c') /\
    mem c' !! buf t = Some b' /\
    length b' = 2 ^ 1 /\
    b' !! 0 = Some (T_ complex128 1 0) /\
    (forall i, 0 < i -> b' !! i = b !! i) /\
    (ground_state complex128 1 b' <->
     forall i, 0 < i < 2 ^ 1 -> b !! i = Some czero).
Proof.
  apply (InitialState_sets_first_amplitude complex128 samples.cpu0
           (samples.context_of (samples.state_tensor complex128 2)
                               [samples.garbage; czero])
           (samples.state_tensor complex128 2)
           [samples.garbage; czero] 1);
    [ lia | reflexivity | reflexivity | reflexivity | reflexivity
    | simpl; lia ].
Defined.

(** C2: for every input buffer of length >= 1, the CPU InitialState functor
    writes only the element at index 0: the call returns, every element at
    an index i > 0 keeps exactly its prior value, the length is unchanged,
    and no other buffer changes. *)
Theorem InitialStateFunctor_CPU_frame
    (T : ctype) (d : CPUDevice) (h : heap) (l : loc) (b : list complex) :
  h !! l = Some b ->
  1 <= length b ->
  exists h' b',
    functor_call T d (Ptr l 0) h = inr (tt, h') /\
    h' !! l = Some b' /\
    length b' = length b /\
    (forall i, 0 < i -> b' !! i = b !! i) /\
    (forall l', l' <> l -> h' !! l' = h !! l').
Proof.
  intros Hl Hlen.
  exists (<[l := <[0 := T_ T 1 0]> b]> h), (<[0 := T_ T 1 0]> b).
  split; [apply functor_CPU_writes; [exact Hl | lia]|].
  split; [apply lookup_insert_eq|].
  split; [apply length_insert|].
  split.
  - intros i Hi. apply list_lookup_insert_ne. lia.
  - intros l' Hne. apply lookup_insert_ne. congruence.
Qed.

Lemma InitialStateFunctor_CPU_frame_witness :
  let b := [czero; samples.garbage; T_ complex64 1 0] in
  let h : heap := {[ 1%positive := b; 2%positive := [samples.garbage] ]} in
  exists h' b',
    functor_call complex64 samples.cpu0 (Ptr 1%positive 0) h = inr (tt, h') /\
    h' !! 1%positive = Some b' /\
    length b' = length b /\
    (forall i, 0 < i -> b' !! i = b !! i) /\
    (forall l', l' <> 1%positive -> h' !! l' = h !! l').
Proof.
  apply (InitialStateFunctor_CPU_frame complex64 samples.cpu0
           {[ 1%positive := [czero; samples.garbage; T_ complex64 1 0];
              2%positive := [samples.garbage] ]}
           1%positive [czero; samples.garbage; T_ complex64 1 0]);
    [ reflexivity | simpl; lia ].
Defined.

(** C8: InitialState is safe on the smallest registers. For a buffer of
    length 2^0 = 1 or 2^1 = 2, and more generally for every buffer of
    length at least 1, the index the functor writes lies inside the buffer
    and the call returns without a fault. *)
Theorem InitialStateFunctor_CPU_in_bounds
    (T : ctype) (d : CPUDevice) (h : heap) (l : loc) (b : list complex) :
  h !! l = Some b ->
  (length b = 2 ^ 0 \/ length b = 2 ^ 1 \/ 1 <= length b) ->
  p_off (index (Ptr l 0) 0) < length b /\
  exists h', functor_call T d (Ptr l 0) h = inr (tt, h').
Proof.
  intros Hl Hlen.
  assert (0 < length b) as Hpos by (simpl in Hlen; lia).
  split; [simpl; exact Hpos|].
  eexists. apply functor_CPU_writes; [exact Hl | exact Hpos].
Qed.

Lemma InitialStateFunctor_CPU_in_bounds_witness :
  (p_off (index (Ptr 1%positive 0) 0) < length [samples.garbage] /\
   exists h', functor_call complex64 samples.cpu0 (Ptr 1%positive 0)
                {[ 1%positive := [samples.garbage] ]} = inr (tt, h')) /\
  (p_off (index (Ptr 1%positive 0) 0)
     < length [samples.garbage; samples.garbage] /\
   exists h', functor_call complex128 samples.cpu0 (Ptr 1%positive 0)
                {[ 1%positive := [samples.garbage; samples.garbage] ]}
              = inr (tt, h')).
Proof.
  split.
  - apply (InitialStateFunctor_CPU_in_bounds complex64 samples.cpu0
             {[ 1%positive := [samples.garbage] ]} 1%positive
             [samples.garbage]);
      [ reflexivity | left; reflexivity ].
  - apply (InitialStateFunctor_CPU_in_bounds complex128 samples.cpu0
             {[ 1%positive := [samples.garbage; samples.garbage] ]}
             1%positive [samples.garbage; samples.garbage]);
      [ reflexivity | right; left; reflexivity ].
Defined.

(** C3: every invocation of the InitialState kernel that returns, on any
    device, has published as output 0 the very handle it read as input 0,
    so output and input are one buffer identity; the kernel itself leaves
    the inputs as they were and changes memory only through the functor's
    writes: it allocates nothing for the output. *)
Theorem Compute_output_aliases_input
    (Device : Type) (F : InitialStateFunctor Device) (T : ctype) (d : Device)
    (c c' : OpKernelContext) :
  Compute T d c = inr (tt, c') ->
  exists t,
    inputs c !! 0 = Some t /\
    outputs c' !! 0 = Some (Some t) /\
    (forall t', outputs c' !! 0 = Some (Some t') -> buf t' = buf t) /\
    outputs c' = <[0 := Some t]> (outputs c) /\
    inputs c' = inputs c /\
    functor_call T d (Ptr (buf t) 0) (mem c) = inr (tt, mem c').
Proof.
  intros Hrun.
  destruct (Compute_inv T d c c' Hrun) as (t & h' & Hin & _ & Hf & Hout & ->).
  exists t. simpl.
  assert (<[0 := Some t]> (outputs c) !! 0 = Some (Some t)) as Hslot
    by (apply list_lookup_insert_eq; exact Hout).
  split; [exact Hin|].
  split; [exact Hslot|].
  split; [intros t' Ht'; rewrite Hslot in Ht'; congruence|].
  split; [reflexivity|].
  split; [reflexivity|exact Hf].
Qed.

Lemma Compute_output_aliases_input_witness :
  let t := samples.state_tensor complex64 2 in
  let c := samples.context_of t [samples.garbage; czero] in
  let c' := {| inputs := [t]; outputs := [Some t];
               mem := {[ buf t := [T_ complex64 1 0; czero] ]} |} in
  exists t0,
    inputs c !! 0 = Some t0 /\
    outputs c' !! 0 = Some (Some t0) /\
    (forall t', outputs c' !! 0 = Some (Some t') -> buf t' = buf t0) /\
    outputs c' = <[0 := Some t0]> (outputs c) /\
    inputs c' = inputs c /\
    functor_call complex64 samples.cpu0 (Ptr (buf t0) 0) (mem c)
    = inr (tt, mem c').
Proof.
  apply (Compute_output_aliases_input CPUDevice InitialStateFunctor_CPU
           complex64 samples.cpu0
           (samples.context_of (samples.state_tensor complex64 2)
                               [samples.garbage; czero])
           {| inputs := [samples.state_tensor complex64 2];
              outputs := [Some (samples.state_tensor complex64 2)];
              mem := {[ buf (samples.state_tensor complex64 2)
                        := [T_ complex64 1 0; czero] ]} |});
    reflexivity.
Defined.

(** ** The operator registrations *)

(** What [Finalize] makes of the gate macro, for any name. *)
Lemma Finalize_REGISTER_GATE_OP (NAME : string) :
  Finalize (REGISTER_GATE_OP NAME)
  = Some {| op_name := NAME;
            op_attr :=
              [ {| attr_name := "T";
                   attr_type := AttrDType (Some [DT_COMPLEX64; DT_COMPLEX128]) |};
                {| attr_name := "nqubits"; attr_type := AttrInt |};
                {| attr_name := "target"; attr_type := AttrInt |} ];
            input_arg :=
              [ {| arg_name := "state"; arg_type := ArgTypeAttr "T" |};
                {| arg_name := "gate"; arg_type := ArgTypeAttr "T" |};
                {| arg_name := "controls"; arg_type := ArgFixed DT_INT32 |} ];
            output_arg :=
              [ {| arg_name := "out"; arg_type := ArgTypeAttr "T" |} ];
            shape_fn := b_shape_fn (REGISTER_GATE_OP NAME) |}.
Proof. reflexivity. Qed.

Lemma Finalize_InitialState_op :
  Finalize InitialState_op
  = Some {| op_name := "InitialState";
            op_attr :=
              [ {| attr_name := "T";
                   attr_type := AttrDType (Some [DT_COMPLEX64; DT_COMPLEX128]) |} ];
            input_arg :=
              [ {| arg_name := "in"; arg_type := ArgTypeAttr "T" |} ];
            output_arg :=
              [ {| arg_name := "out"; arg_type := ArgTypeAttr "T" |} ];
            shape_fn := b_shape_fn InitialState_op |}.
Proof. reflexivity. Qed.

Lemma LookUp_InitialState : LookUp "InitialState" = Finalize InitialState_op.
Proof. reflexivity. Qed.

Lemma LookUp_gate (NAME : string) :
  NAME ∈ gate_ops -> LookUp NAME = Finalize (REGISTER_GATE_OP NAME).
Proof.
  unfold gate_ops. rewrite !elem_of_cons, elem_of_nil.
  intros [->|[->|[->|[->|[->|[]]]]]]; reflexivity.
Qed.

(** The shape lambda copies the shape handle of input 0 into output 0. *)
Lemma shape_lambda_spec (c : shape_inference.InferenceContext)
    (s : shape_inference.ShapeHandle) :
  shape_inference.inputs_ c !! 0 = Some s ->
  0 < length (shape_inference.outputs_ c) ->
  (s0 <- shape_inference.input 0 ;;
   (shape_inference.set_output 0 s0 ;;; ret OK)) c
  = inr (OK, {| shape_inference.inputs_ := shape_inference.inputs_ c;
                shape_inference.outputs_ :=
                  <[0 := s]> (shape_inference.outputs_ c) |}).
Proof.
  intros Hin Hout.
  unfold bind, shape_inference.input, shape_inference.set_output, ret.
  rewrite Hin. destruct (decide (0 < length (shape_inference.outputs_ c)));
    [reflexivity | lia].
Qed.

(** C7: each of the five gate operations is registered with exactly three
    inputs (state of type T, gate of type T, controls of type int32),
    exactly two value attributes (the integers nqubits and target) next to
    the type parameter T, and exactly one output, of type T. *)
Theorem gate_ops_signature :
  gate_ops = ["ApplyGate"; "ApplyX"; "ApplyY"; "ApplyZ"; "ApplyZPow"] /\
  Forall
    (fun NAME =>
       REGISTER_GATE_OP NAME ∈ op_registrations /\
       exists op,
         LookUp NAME = Some op /\
         op_name op = NAME /\
         input_arg op
         = [ {| arg_name := "state"; arg_type := ArgTypeAttr "T" |};
             {| arg_name := "gate"; arg_type := ArgTypeAttr "T" |};
             {| arg_name := "controls"; arg_type := ArgFixed DT_INT32 |} ] /\
         length (input_arg op) = 3 /\
         value_attrs op
         = [ {| attr_name := "nqubits"; attr_type := AttrInt |};
             {| attr_name := "target"; attr_type := AttrInt |} ] /\
         length (value_attrs op) = 2 /\
         type_params op
         = [ {| attr_name := "T";
                attr_type := AttrDType (Some [DT_COMPLEX64; DT_COMPLEX128]) |} ] /\
         op_attr op = type_params op ++ value_attrs op /\
         output_arg op
         = [ {| arg_name := "out"; arg_type := ArgTypeAttr "T" |} ])
    gate_ops.
Proof.
  split; [reflexivity|].
  apply Forall_forall. intros NAME HNAME.
  split.
  - unfold op_registrations. apply elem_of_cons. right.
    apply list_elem_of_fmap. exists NAME. split; [reflexivity | exact HNAME].
  - rewrite (LookUp_gate NAME HNAME), Finalize_REGISTER_GATE_OP.
    eexists. split; [reflexivity|]. repeat split.
Qed.

(** C10: the registration of ApplyZPow is that of ApplyGate, ApplyX, ApplyY
    and ApplyZ under another name: same inputs, same attributes (the type
    constraint among them), same output and same shape function. Its phase
    parameter has no input or attribute of its own: the second input is the
    T-typed tensor named gate, no input has a real element type, and no
    attribute is a float. *)
Theorem ApplyZPow_registered_as_the_other_gates :
  exists zpow,
    LookUp "ApplyZPow" = Some zpow /\
    Forall
      (fun NAME =>
         exists op,
           LookUp NAME = Some op /\
           input_arg zpow = input_arg op /\
           op_attr zpow = op_attr op /\
           type_params zpow = type_params op /\
           output_arg zpow = output_arg op /\
           shape_fn zpow = shape_fn op /\
           zpow = {| op_name := "ApplyZPow"; op_attr := op_attr op;
                     input_arg := input_arg op; output_arg := output_arg op;
                     shape_fn := shape_fn op |})
      ["ApplyGate"; "ApplyX"; "ApplyY"; "ApplyZ"] /\
    input_arg zpow !! 1
    = Some {| arg_name := "gate"; arg_type := ArgTypeAttr "T" |} /\
    type_params zpow
    = [ {| attr_name := "T";
           attr_type := AttrDType (Some [DT_COMPLEX64; DT_COMPLEX128]) |} ] /\
    (arg_name <$> input_arg zpow) = ["state"; "gate"; "controls"] /\
    Forall (fun a => arg_type a <> ArgFixed DT_FLOAT /\
                     arg_type a <> ArgFixed DT_DOUBLE /\
                     arg_type a <> ArgFixed DT_HALF) (input_arg zpow) /\
    Forall (fun a => attr_type a <> AttrFloat) (op_attr zpow).
Proof.
  eexists. split; [reflexivity|].
  split.
  - repeat constructor; eexists; (split; [reflexivity|]); repeat split.
  - simpl. repeat split; repeat constructor; discriminate.
Qed.

(** C4: for every registered operation the declared shape function, run on
    an inference context with the operation's numbers of inputs and
    outputs, returns OK with output 0 holding the shape handle of input 0
    and the inputs unchanged; and the single declared output has the
    declared type of the first input, so under every binding of the type
    attributes both have the same element type. The shape function works
    on the inference context alone. *)
Theorem shape_fn_is_identity :
  registered_names
  = ["InitialState"; "ApplyGate"; "ApplyX"; "ApplyY"; "ApplyZ"; "ApplyZPow"] /\
  Forall
    (fun name =>
       exists op fn first others out,
         LookUp name = Some op /\
         shape_fn op = Some fn /\
         input_arg op = first :: others /\
         output_arg op = [out] /\
         arg_type out = arg_type first /\
         (forall env, arg_dtype env out = arg_dtype env first) /\
         forall c : shape_inference.InferenceContext,
           length (shape_inference.inputs_ c) = length (input_arg op) ->
           length (shape_inference.outputs_ c) = length (output_arg op) ->
           exists s,
             shape_inference.inputs_ c !! 0 = Some s /\
             fn c = inr (OK, {| shape_inference.inputs_ :=
                                  shape_inference.inputs_ c;
                                shape_inference.outputs_ := [s] |}))
    registered_names.
Proof.
  split; [reflexivity|].
  assert (forall (c : shape_inference.InferenceContext) n,
            length (shape_inference.inputs_ c) = S n ->
            length (shape_inference.outputs_ c) = 1 ->
            exists s,
              shape_inference.inputs_ c !! 0 = Some s /\
              (s0 <- shape_inference.input 0 ;;
               (shape_inference.set_output 0 s0 ;;; ret OK)) c
              = inr (OK, {| shape_inference.inputs_ :=
                              shape_inference.inputs_ c;
                            shape_inference.outputs_ := [s] |})) as Hfn.
  { intros [ins outs] n Hins Houts. simpl in *.
    destruct ins as [|s ins]; [discriminate|].
    destruct outs as [|o [|? ?]]; try discriminate.
    exists s. split; [reflexivity|].
    rewrite (shape_lambda_spec _ s); [reflexivity | reflexivity | simpl; lia]. }
  repeat constructor;
    (eexists _, _, _, _, _;
     split; [reflexivity|]; split; [reflexivity|];
     split; [reflexivity|]; split; [reflexivity|];
     split; [reflexivity|]; split; [reflexivity|];
     intros c Hins Houts; eapply Hfn; [exact Hins | exact Houts]).
Qed.

(** ** Type checking and dispatch *)

(** Every rejection by [bind_types] is an invalid argument. *)
Lemma bind_types_error (args : list ArgDef) :
  forall (tys : list DataType) (env : gmap string DataType) (e : Status),
    bind_types args tys env = inl e -> e = Error INVALID_ARGUMENT.
Proof.
  induction args as [|a args IH]; intros [|ty tys] env e; simpl;
    try congruence.
  destruct (arg_type a) as [dt|attr].
  - case_decide; [apply IH | congruence].
  - destruct (env !! attr) as [ty'|]; [case_decide; [apply IH | congruence]
                                      | apply IH].
Qed.

(** [bind_types] never rebinds a type attribute. *)
Lemma bind_types_preserves (args : list ArgDef) :
  forall (tys : list DataType) (env env' : gmap string DataType)
         (k : string) (v : DataType),
    bind_types args tys env = inr env' ->
    env !! k = Some v -> env' !! k = Some v.
Proof.
  induction args as [|a args IH]; intros [|ty tys] env env' k v; simpl;
    try congruence.
  destruct (arg_type a) as [dt|attr].
  - case_decide; [apply IH | congruence].
  - destruct (env !! attr) as [ty'|] eqn:Hattr.
    + case_decide; [apply IH | congruence].
    + intros Hrun Hk. apply (IH _ _ _ _ _ Hrun).
      rewrite lookup_insert_ne; [exact Hk | congruence].
Qed.

(** A binding that passes the check of a restricted type attribute holds
    one of the allowed types. *)
Lemma TypeCheck_allowed (op : OpDef) (tys : list DataType)
    (env : gmap string DataType) (name : string) (allowed : list DataType) :
  {| attr_name := name; attr_type := AttrDType (Some allowed) |} ∈ op_attr op ->
  TypeCheck op tys = inr env ->
  exists ty, env !! name = Some ty /\ ty ∈ allowed.
Proof.
  intros Hattr. unfold TypeCheck.
  destruct (bind_types (input_arg op) tys ∅) as [e|env0]; [congruence|].
  destruct (forallb (attr_ok env0) (op_attr op)) eqn:Hok; [|congruence].
  intros [= <-].
  rewrite forallb_forall in Hok.
  apply list_elem_of_In in Hattr. specialize (Hok _ Hattr).
  unfold attr_ok in Hok; simpl in Hok.
  destruct (env0 !! name) as [ty|]; [|discriminate].
  exists ty. split; [reflexivity|]. apply bool_decide_eq_true in Hok. exact Hok.
Qed.

(** An operator whose first input has the restricted type [T] rejects every
    input list that starts with a type outside the allowed ones. *)
Lemma TypeCheck_rejects (op : OpDef) (first : ArgDef) (others : list ArgDef)
    (allowed : list DataType) (dt : DataType) (tys : list DataType) :
  input_arg op = first :: others ->
  arg_type first = ArgTypeAttr "T" ->
  {| attr_name := "T"; attr_type := AttrDType (Some allowed) |} ∈ op_attr op ->
  dt ∉ allowed ->
  TypeCheck op (dt :: tys) = inl (Error INVALID_ARGUMENT).
Proof.
  intros Hargs Hfirst Hattr Hdt.
  destruct (TypeCheck op (dt :: tys)) as [e|env] eqn:Hrun.
  - f_equal. revert Hrun. unfold TypeCheck.
    destruct (bind_types (input_arg op) (dt :: tys) ∅) as [e0|env0] eqn:Hb.
    + intros [= <-]. exact (bind_types_error _ _ _ _ Hb).
    + destruct (forallb _ _); congruence.
  - exfalso.
    destruct (TypeCheck_allowed op _ env "T" allowed Hattr Hrun)
      as (ty & Hty & Hin).
    revert Hrun. unfold TypeCheck. rewrite Hargs. simpl. rewrite Hfirst.
    rewrite lookup_empty.
    destruct (bind_types others tys (<["T" := dt]> ∅)) as [e0|env0] eqn:Hb;
      [congruence|].
    destruct (forallb _ _); [|congruence]. intros [= <-].
    pose proof (bind_types_preserves _ _ _ _ "T" dt Hb
                  (lookup_insert_eq _ _ _)) as Hkeep.
    congruence.
Qed.

(** The kernels registered for InitialState, with and without the
    accelerator backend. *)
Lemma kernel_registrations_cuda (v : Z) :
  kernel_registrations (Some v)
  = [ {| kernel_op := "InitialState"; kernel_device := DEVICE_CPU;
         kernel_constraint := ("T", DT_COMPLEX64);
         kernel_class := InitialStateOp_CPU complex64 |};
      {| kernel_op := "InitialState"; kernel_device := DEVICE_CPU;
         kernel_constraint := ("T", DT_COMPLEX128);
         kernel_class := InitialStateOp_CPU complex128 |};
      {| kernel_op := "InitialState"; kernel_device := DEVICE_GPU;
         kernel_constraint := ("T", DT_COMPLEX64);
         kernel_class := InitialStateOp_GPU complex64 |};
      {| kernel_op := "InitialState"; kernel_device := DEVICE_GPU;
         kernel_constraint := ("T", DT_COMPLEX128);
         kernel_class := InitialStateOp_GPU complex128 |} ].
Proof. reflexivity. Qed.

Lemma kernel_registrations_no_cuda :
  kernel_registrations None
  = [ {| kernel_op := "InitialState"; kernel_device := DEVICE_CPU;
         kernel_constraint := ("T", DT_COMPLEX64);
         kernel_class := InitialStateOp_CPU complex64 |};
      {| kernel_op := "InitialState"; kernel_device := DEVICE_CPU;
         kernel_constraint := ("T", DT_COMPLEX128);
         kernel_class := InitialStateOp_CPU complex128 |} ].
Proof. reflexivity. Qed.

(** Every registered kernel constrains [T] to one of the two complex
    types, so a kernel is found only under such a binding. *)
Lemma FindKernel_constraint (GOOGLE_CUDA : option Z) (name : string)
    (dev : DeviceType) (env : gmap string DataType) (k : KernelClass) :
  FindKernel GOOGLE_CUDA name dev env = Some k ->
  env !! "T" = Some DT_COMPLEX64 \/ env !! "T" = Some DT_COMPLEX128.
Proof.
  unfold FindKernel.
  destruct (List.find _ _) as [r|] eqn:Hfind; [|discriminate].
  intros _. apply find_some in Hfind as [Hin Hmatch].
  unfold kernel_matches in Hmatch.
  apply andb_prop in Hmatch as [_ Hc]. apply bool_decide_eq_true in Hc.
  destruct GOOGLE_CUDA; simpl in Hin;
    repeat (destruct Hin as [<-|Hin]; [simpl in Hc; auto|]); destruct Hin.
Qed.

Lemma FindKernel_CPU (GOOGLE_CUDA : option Z) (T : ctype) :
  FindKernel GOOGLE_CUDA "InitialState" DEVICE_CPU
             {[ "T" := DataTypeToEnum T ]}
  = Some (InitialStateOp_CPU T).
Proof. destruct GOOGLE_CUDA, T; reflexivity. Qed.

Lemma TypeCheck_InitialState (T : ctype) (t : Tensor) :
  dtype t = DataTypeToEnum T ->
  exists op,
    LookUp "InitialState" = Some op /\
    length (output_arg op) = 1 /\
    TypeCheck op (dtype <$> [t]) = inr {[ "T" := DataTypeToEnum T ]}.
Proof.
  intros Hty. rewrite LookUp_InitialState, Finalize_InitialState_op.
  eexists. split; [reflexivity|]. split; [reflexivity|].
  simpl. rewrite Hty. destruct T; reflexivity.
Qed.

(** An invocation of InitialState on the CPU with one input of a supported
    type reaches the kernel. *)
Lemma Execute_InitialState_CPU (GOOGLE_CUDA : option Z) (d : CPUDevice)
    (T : ctype) (t : Tensor) (h : heap) :
  dtype t = DataTypeToEnum T ->
  Execute GOOGLE_CUDA (OnCPU d) "InitialState" [t] h
  = match Compute T d {| inputs := [t]; outputs := [None]; mem := h |} with
    | inl f => Aborted f
    | inr (_, c) => Finished (outputs c) (mem c)
    end.
Proof.
  intros Hty.
  destruct (TypeCheck_InitialState T t Hty) as (op & Hop & Hout & Hcheck).
  unfold Execute. rewrite Hop, Hcheck. simpl device_type.
  rewrite FindKernel_CPU, Hout. reflexivity.
Qed.

(** What all six registrations share: the restricted type parameter [T],
    and a first input of type [T]. *)
Lemma registered_op_type_param (name : string) :
  name ∈ registered_names ->
  exists op first others,
    LookUp name = Some op /\
    type_params op
    = [ {| attr_name := "T";
           attr_type := AttrDType (Some [DT_COMPLEX64; DT_COMPLEX128]) |} ] /\
    {| attr_name := "T";
       attr_type := AttrDType (Some [DT_COMPLEX64; DT_COMPLEX128]) |}
      ∈ op_attr op /\
    input_arg op = first :: others /\
    arg_type first = ArgTypeAttr "T".
Proof.
  unfold registered_names, op_registrations, gate_ops. simpl.
  rewrite !elem_of_cons, elem_of_nil.
  intros [->|[->|[->|[->|[->|[->|[]]]]]]];
    (eexists _, _, _; split; [reflexivity|]; split; [reflexivity|];
     split; [simpl; constructor|]; split; reflexivity).
Qed.

(** C5: every one of the six operations has exactly one type parameter, T,
    restricted to complex64 and complex128: a type check that succeeds has
    bound T to one of the two, and an input of any other element type is
    rejected as an invalid argument by the type check, which runs before
    any kernel. With GOOGLE_CUDA defined, the InitialState kernel is
    registered, and found, for both precisions on both CPU and GPU; no
    kernel is found under any other binding of T. *)
Theorem element_type_restricted_to_complex :
  Forall
    (fun name =>
       exists op,
         LookUp name = Some op /\
         type_params op
         = [ {| attr_name := "T";
                attr_type := AttrDType (Some [DT_COMPLEX64; DT_COMPLEX128]) |} ] /\
         (forall tys env,
            TypeCheck op tys = inr env ->
            env !! "T" = Some DT_COMPLEX64 \/ env !! "T" = Some DT_COMPLEX128) /\
         (forall dt tys,
            dt <> DT_COMPLEX64 -> dt <> DT_COMPLEX128 ->
            TypeCheck op (dt :: tys) = inl (Error INVALID_ARGUMENT)))
    registered_names /\
  (forall (v : Z) (dev : DeviceType) (T : ctype),
     let k := match dev with
              | DEVICE_CPU => InitialStateOp_CPU T
              | DEVICE_GPU => InitialStateOp_GPU T
              end in
     {| kernel_op := "InitialState"; kernel_device := dev;
        kernel_constraint := ("T", DataTypeToEnum T);
        kernel_class := k |} ∈ kernel_registrations (Some v) /\
     FindKernel (Some v) "InitialState" dev {[ "T" := DataTypeToEnum T ]}
     = Some k) /\
  (forall GOOGLE_CUDA name dev env k,
     FindKernel GOOGLE_CUDA name dev env = Some k ->
     env !! "T" = Some DT_COMPLEX64 \/ env !! "T" = Some DT_COMPLEX128).
Proof.
  split; [|split].
  - apply Forall_forall. intros name Hname.
    destruct (registered_op_type_param name Hname)
      as (op & first & others & Hop & Hparams & Hattr & Hargs & Hfirst).
    exists op. split; [exact Hop|]. split; [exact Hparams|]. split.
    + intros tys env Hrun.
      destruct (TypeCheck_allowed op tys env "T" _ Hattr Hrun)
        as (ty & Hty & Hin).
      rewrite Hty. rewrite !elem_of_cons, elem_of_nil in Hin.
      destruct Hin as [->|[->|[]]]; auto.
    + intros dt tys H64 H128.
      apply (TypeCheck_rejects op first others _ dt tys Hargs Hfirst Hattr).
      rewrite !elem_of_cons, elem_of_nil. tauto.
  - intros v dev T k. subst k. rewrite kernel_registrations_cuda.
    split.
    + destruct dev, T; simpl; rewrite !elem_of_cons; tauto.
    + destruct dev, T; reflexivity.
  - exact FindKernel_constraint.
Qed.

(** ** Error paths *)

(** C6, as stated, fails: a buffer of three amplitudes has no qubit count
    (3 is no power of two), yet the invocation is not rejected; it
    finishes, with element 0 of the buffer overwritten. *)
Lemma precondition_violation_counterexample :
  let t := samples.state_tensor complex64 3 in
  let b := [czero; czero; czero] in
  let h : heap := {[ buf t := b ]} in
  let h' : heap := {[ buf t := [T_ complex64 1 0; czero; czero] ]} in
  NumElements t = length b /\
  ~ (exists n, length b = 2 ^ n) /\
  Execute None (OnCPU samples.cpu0) "InitialState" [t] h
  = Finished [Some t] h' /\
  h' <> h.
Proof.
  split; [reflexivity|]. split; [|split].
  - intros [n Hn]. simpl in Hn.
    destruct n as [|[|n]]; simpl in Hn; lia.
  - reflexivity.
  - intros Heq.
    apply (f_equal (fun m : heap => m !! 1%positive)) in Heq.
    discriminate Heq.
Qed.

(** C6, amended: for every invocation of a registered operation whose state
    vector has an element type other than complex64 and complex128, the
    violation is detected by the type check at dispatch, before any kernel
    runs, and the invocation is rejected as an invalid argument with the
    memory, the amplitude buffer included, exactly as it was. *)
Theorem unsupported_element_type_rejected
    (GOOGLE_CUDA : option Z) (dev : Device) (name : string) (t : Tensor)
    (ins : list Tensor) (h : heap) :
  name ∈ registered_names ->
  dtype t <> DT_COMPLEX64 ->
  dtype t <> DT_COMPLEX128 ->
  Execute GOOGLE_CUDA dev name (t :: ins) h
  = Rejected (Error INVALID_ARGUMENT) h.
Proof.
  intros Hname H64 H128.
  destruct (registered_op_type_param name Hname)
    as (op & first & others & Hop & _ & Hattr & Hargs & Hfirst).
  unfold Execute. rewrite Hop. rewrite fmap_cons.
  rewrite (TypeCheck_rejects op first others _ (dtype t) _ Hargs Hfirst Hattr);
    [reflexivity|].
  rewrite !elem_of_cons, elem_of_nil. tauto.
Qed.

Lemma unsupported_element_type_rejected_witness :
  let t := {| dtype := DT_DOUBLE; shape := [2]; buf := 1%positive |} in
  let h : heap := {[ 1%positive := [samples.garbage; czero] ]} in
  Execute None (OnCPU samples.cpu0) "InitialState" [t] h
  = Rejected (Error INVALID_ARGUMENT) h.
Proof.
  apply (unsupported_element_type_rejected None (OnCPU samples.cpu0)
           "InitialState"
           {| dtype := DT_DOUBLE; shape := [2]; buf := 1%positive |} []
           {[ 1%positive := [samples.garbage; czero] ]});
    [ constructor | discriminate | discriminate ].
Defined.

(** C9: the InitialState kernel validates nothing. With one input of a
    supported type the invocation always reaches the functor, which writes
    element 0 whatever the buffer is: the write is out of bounds exactly
    when the buffer is empty, the kernel and the invocation then end in
    that fault, and on every non-empty buffer the invocation finishes with
    element 0 overwritten. *)
Theorem InitialState_unguarded_write
    (GOOGLE_CUDA : option Z) (d : CPUDevice) (T : ctype) (t : Tensor)
    (h : heap) (b : list complex) :
  dtype t = DataTypeToEnum T ->
  h !! buf t = Some b ->
  (functor_call T d (Ptr (buf t) 0) h = inl OutOfBounds <-> b = []) /\
  (b = [] ->
   Compute T d {| inputs := [t]; outputs := [None]; mem := h |}
   = inl OutOfBounds /\
   Execute GOOGLE_CUDA (OnCPU d) "InitialState" [t] h = Aborted OutOfBounds) /\
  (b <> [] ->
   Execute GOOGLE_CUDA (OnCPU d) "InitialState" [t] h
   = Finished [Some t] (<[buf t := <[0 := T_ T 1 0]> b]> h)).
Proof.
  intros Hty Hb.
  assert (b = [] ->
          Compute T d {| inputs := [t]; outputs := [None]; mem := h |}
          = inl OutOfBounds) as Hcrash.
  { intros ->.
    rewrite (Compute_unfold T d
               {| inputs := [t]; outputs := [None]; mem := h |} t eq_refl Hty).
    simpl. rewrite (functor_CPU_empty T d h _ Hb). reflexivity. }
  assert (b <> [] -> 0 < length b) as Hpos.
  { destruct b; [congruence | simpl; lia]. }
  split; [split|split].
  - intros Hf. destruct b as [|x b]; [reflexivity|].
    rewrite (functor_CPU_writes T d h _ _ Hb) in Hf by (simpl; lia).
    discriminate Hf.
  - intros ->. apply functor_CPU_empty, Hb.
  - intros Hnil. split; [exact (Hcrash Hnil)|].
    rewrite (Execute_InitialState_CPU _ d T t h Hty), (Hcrash Hnil).
    reflexivity.
  - intros Hne.
    rewrite (Execute_InitialState_CPU _ d T t h Hty).
    rewrite (Compute_CPU_spec T d
               {| inputs := [t]; outputs := [None]; mem := h |} t b
               eq_refl Hty Hb (Hpos Hne))
      by (simpl; lia).
    reflexivity.
Qed.

Lemma InitialState_unguarded_write_witness :
  let t := samples.state_tensor complex64 0 in
  let h : heap := {[ buf t := [] ]} in
  NumElements t = 0 /\
  Compute complex64 samples.cpu0
    {| inputs := [t]; outputs := [None]; mem := h |} = inl OutOfBounds /\
  Execute None (OnCPU samples.cpu0) "InitialState" [t] h
  = Aborted OutOfBounds.
Proof.
  split; [reflexivity|].
  apply (InitialState_unguarded_write None samples.cpu0 complex64
           (samples.state_tensor complex64 0)
           {[ buf (samples.state_tensor complex64 0) := [] ]} []);
    reflexivity.
Defined.

(** * Further properties of the kernel *)

(** ** When the CPU kernel returns *)

(** X1: the CPU kernel returns exactly when input 0 exists with element
    type [T], its buffer is live and non-empty, and there is an output
    slot. It ends in the out-of-bounds fault exactly when input 0 exists
    with element type [T] and its buffer is dead or empty, whether or not
    there is an output slot: the write comes before [set_output]. *)
Theorem Compute_CPU_returns_iff
    (T : ctype) (d : CPUDevice) (c : OpKernelContext) :
  ((exists c', Compute T d c = inr (tt, c')) <->
   exists t b,
     inputs c !! 0 = Some t /\ dtype t = DataTypeToEnum T /\
     mem c !! buf t = Some b /\ b <> [] /\ outputs c <> []) /\
  (Compute T d c = inl OutOfBounds <->
   exists t,
     inputs c !! 0 = Some t /\ dtype t = DataTypeToEnum T /\
     (mem c !! buf t = None \/ mem c !! buf t = Some [])).
Proof.
  destruct (inputs c !! 0) as [t|] eqn:Hin.
  2:{ split; split.
      - intros [c' Hrun].
        destruct (Compute_inv T d c c' Hrun) as (t & _ & Ht & _). congruence.
      - intros (t & _ & Ht & _). congruence.
      - unfold Compute, bind, input. rewrite Hin. discriminate.
      - intros (t & Ht & _). congruence. }
  destruct (decide (dtype t = DataTypeToEnum T)) as [Hty|Hty].
  2:{ split; split.
      - intros [c' Hrun].
        destruct (Compute_inv T d c c' Hrun) as (t' & _ & Ht' & Hty' & _).
        congruence.
      - intros (t' & _ & Ht' & Hty' & _). congruence.
      - unfold Compute, bind, input, flat, fault. rewrite Hin.
        destruct (decide (dtype t = DataTypeToEnum T)); [done | discriminate].
      - intros (t' & Ht' & Hty' & _). congruence. }
  rewrite (Compute_unfold T d c t Hin Hty).
  destruct (mem c !! buf t) as [[|x b]|] eqn:Hb.
  - rewrite (functor_CPU_empty T d _ _ Hb). split; split.
    + intros [c' Hc']. discriminate.
    + intros (t' & b' & Ht' & _ & Hb' & Hne & _).
      assert (t' = t) as -> by congruence. congruence.
    + intros _. exists t. auto.
    + reflexivity.
  - rewrite (functor_CPU_writes T d _ _ (x :: b) Hb) by (simpl; lia).
    destruct (decide (0 < length (outputs c))) as [Ho|Ho].
    + split; split.
      * intros _. exists t, (x :: b). repeat split; try congruence.
        intros Hnil. rewrite Hnil in Ho. simpl in Ho. lia.
      * intros _. eexists. reflexivity.
      * discriminate.
      * intros (t' & Ht' & _ & [Hb'|Hb']);
          assert (t' = t) as -> by congruence; congruence.
    + split; split.
      * intros [c' Hc']. discriminate.
      * intros (_ & _ & _ & _ & _ & _ & Hne).
        destruct (outputs c); [congruence | simpl in Ho; lia].
      * discriminate.
      * intros (t' & Ht' & _ & [Hb'|Hb']);
          assert (t' = t) as -> by congruence; congruence.
  - assert (functor_call T d (Ptr (buf t) 0) (mem c) = inl OutOfBounds) as ->.
    { unfold functor_call, InitialStateFunctor_CPU, store, index; simpl.
      rewrite Hb. reflexivity. }
    split; split.
    + intros [c' Hc']. discriminate.
    + intros (t' & b' & Ht' & _ & Hb' & _).
      assert (t' = t) as -> by congruence. congruence.
    + intros _. exists t. auto.
    + reflexivity.
Qed.

(** ** Running the kernel again *)

(** X2: the CPU kernel is idempotent: on the context a returning run
    leaves, a second run returns and leaves that same context. *)
Theorem Compute_CPU_idempotent
    (T : ctype) (d : CPUDevice) (c c' : OpKernelContext) :
  Compute T d c = inr (tt, c') ->
  Compute T d c' = inr (tt, c').
Proof.
  intros Hrun.
  destruct (Compute_inv T d c c' Hrun) as (t & h' & Hin & Hty & Hf & Hout & ->).
  revert Hf.
  unfold functor_call, InitialStateFunctor_CPU, store, index; simpl.
  destruct (mem c !! buf t) as [b|] eqn:Hb; [|discriminate].
  case_decide as Hlen; [|discriminate]. intros [= <-].
  rewrite (Compute_CPU_spec T d _ t (<[0 := T_ T 1 0]> b)); simpl.
  - f_equal. f_equal. f_equal.
    + apply list_insert_insert_eq.
    + rewrite list_insert_insert_eq, insert_insert_eq. reflexivity.
  - exact Hin.
  - exact Hty.
  - apply lookup_insert_eq.
  - rewrite length_insert. exact Hlen.
  - rewrite length_insert. exact Hout.
Qed.

Lemma Compute_CPU_idempotent_witness :
  let t := samples.state_tensor complex64 2 in
  let c' := {| inputs := [t]; outputs := [Some t];
               mem := {[ buf t := [T_ complex64 1 0; samples.garbage] ]} |} in
  Compute complex64 samples.cpu0 c' = inr (tt, c').
Proof.
  apply (Compute_CPU_idempotent complex64 samples.cpu0
           (samples.context_of (samples.state_tensor complex64 2)
                               [samples.garbage; samples.garbage])).
  reflexivity.
Defined.

(** ** What the caller's tensor looks like afterwards *)

(** X3: the kernel works in place on the input's buffer, so whoever holds
    the input tensor sees the write. A returning run leaves memory exactly
    as it was if and only if element 0 of the input already was (1,0); in
    every other case the input's prior element 0 is gone. *)
Theorem Compute_CPU_clobbers_input
    (T : ctype) (d : CPUDevice) (c c' : OpKernelContext) (t : Tensor)
    (b : list complex) :
  inputs c !! 0 = Some t ->
  mem c !! buf t = Some b ->
  Compute T d c = inr (tt, c') ->
  mem c' !! buf t = Some (<[0 := T_ T 1 0]> b) /\
  (mem c' = mem c <-> b !! 0 = Some (T_ T 1 0)).
Proof.
  intros Hin Hb Hrun.
  destruct (Compute_inv T d c c' Hrun)
    as (t' & h' & Hin' & Hty & Hf & Hout & ->).
  assert (t' = t) as -> by congruence.
  assert (0 < length b) as Hlen.
  { destruct b; [|simpl; lia].
    rewrite (functor_CPU_empty T d _ _ Hb) in Hf. discriminate. }
  rewrite (functor_CPU_writes T d _ _ b Hb Hlen) in Hf.
  injection Hf as <-. simpl.
  split; [apply lookup_insert_eq|].
  split.
  - intros Heq.
    apply (f_equal (fun m : heap => m !! buf t)) in Heq.
    rewrite lookup_insert_eq, Hb in Heq. injection Heq as Heq.
    rewrite <- Heq. apply list_lookup_insert_eq. exact Hlen.
  - intros H0. rewrite (list_insert_id b 0 _ H0). apply insert_id, Hb.
Qed.

Lemma Compute_CPU_clobbers_input_witness :
  let t := samples.state_tensor complex64 2 in
  let b := [samples.garbage; czero] in
  let c := samples.context_of t b in
  let c' := {| inputs := [t]; outputs := [Some t];
               mem := {[ buf t := [T_ complex64 1 0; czero] ]} |} in
  mem c' !! buf t = Some (<[0 := T_ complex64 1 0]> b) /\
  (mem c' = mem c <-> b !! 0 = Some (T_ complex64 1 0)).
Proof.
  apply (Compute_CPU_clobbers_input complex64 samples.cpu0
           (samples.context_of (samples.state_tensor complex64 2)
                               [samples.garbage; czero])
           {| inputs := [samples.state_tensor complex64 2];
              outputs := [Some (samples.state_tensor complex64 2)];
              mem := {[ buf (samples.state_tensor complex64 2)
                        := [T_ complex64 1 0; czero] ]} |}
           (samples.state_tensor complex64 2)
           [samples.garbage; czero]);
    reflexivity.
Defined.

(** X4: on a buffer of 2^n amplitudes that are all (0,0), for every n >= 0,
    the CPU kernel returns and the buffer then holds (1,0) followed by
    2^n - 1 amplitudes (0,0): the ground state of n qubits. *)
Theorem Compute_CPU_on_zeros
    (T : ctype) (d : CPUDevice) (c : OpKernelContext) (t : Tensor) (n : nat) :
  inputs c !! 0 = Some t ->
  dtype t = DataTypeToEnum T ->
  mem c !! buf t = Some (replicate (2 ^ n) czero) ->
  outputs c <> [] ->
  exists c',
    Compute T d c = inr (tt, c') /\
    mem c' !! buf t = Some (T_ T 1 0 :: replicate (2 ^ n - 1) czero) /\
    ground_state T n (T_ T 1 0 :: replicate (2 ^ n - 1) czero).
Proof.
  intros Hin Hty Hb Hout.
  pose proof (Nat.pow_nonzero 2 n ltac:(lia)) as Hpow.
  assert (replicate (2 ^ n) czero = czero :: replicate (2 ^ n - 1) czero)
    as Hrep.
  { destruct (2 ^ n) as [|k]; [lia|]. simpl. rewrite Nat.sub_0_r. reflexivity. }
  eexists. split; [|split].
  - apply (Compute_CPU_spec T d c t _ Hin Hty Hb).
    + rewrite length_replicate. lia.
    + destruct (outputs c); [congruence | simpl; lia].
  - simpl. rewrite lookup_insert_eq, Hrep. reflexivity.
  - split; [reflexivity|].
    intros i Hi. destruct i as [|i]; [lia|]. simpl.
    apply lookup_replicate_2. lia.
Qed.

Lemma Compute_CPU_on_zeros_witness :
  let t := samples.state_tensor complex128 4 in
  exists c',
    Compute complex128 samples.cpu0
      (samples.context_of t (replicate (2 ^ 2) czero)) = inr (tt, c') /\
    mem c' !! buf t
    = Some (T_ complex128 1 0 :: replicate (2 ^ 2 - 1) czero) /\
    ground_state complex128 2 (T_ complex128 1 0 :: replicate (2 ^ 2 - 1) czero).
Proof.
  apply (Compute_CPU_on_zeros complex128 samples.cpu0
           (samples.context_of (samples.state_tensor complex128 4)
                               (replicate (2 ^ 2) czero))
           (samples.state_tensor complex128 4) 2);
    [ reflexivity | reflexivity | reflexivity | discriminate ].
Defined.

(** * Further properties of the registrations *)

(** ** Which inputs an operation accepts *)

(** The type check of the finalized InitialState registration. *)
Lemma TypeCheck_InitialState_iff (op : OpDef) :
  Finalize InitialState_op = Some op ->
  forall (tys : list DataType) (env : gmap string DataType),
    TypeCheck op tys = inr env <->
    exists dt,
      (dt = DT_COMPLEX64 \/ dt = DT_COMPLEX128) /\
      tys = [dt] /\ env = {[ "T" := dt ]}.
Proof.
  rewrite Finalize_InitialState_op. intros [= <-].
  intros tys env. unfold TypeCheck. simpl. split.
  - destruct tys as [|dt [|dt' tys]]; simpl; try discriminate.
    rewrite lookup_empty. simpl. unfold attr_ok. simpl.
    rewrite lookup_insert_eq, andb_true_r.
    case_bool_decide as Hin; [|discriminate].
    intros [= <-]. exists dt.
    rewrite !elem_of_cons, elem_of_nil in Hin.
    split; [tauto|]. split; [reflexivity|]. apply insert_empty.
  - intros (dt & Hdt & -> & ->). simpl.
    rewrite lookup_empty. simpl. unfold attr_ok. simpl.
    rewrite lookup_insert_eq, andb_true_r. rewrite insert_empty.
    rewrite bool_decide_eq_true_2; [reflexivity|].
    rewrite !elem_of_cons. tauto.
Qed.

(** X5: InitialState accepts exactly one input, of element type complex64
    or complex128, and binds T to that type; no input, more than one
    input, or any other element type fails the type check. *)
Theorem InitialState_accepted_inputs :
  exists op,
    LookUp "InitialState" = Some op /\
    forall (tys : list DataType) (env : gmap string DataType),
      TypeCheck op tys = inr env <->
      exists dt,
        (dt = DT_COMPLEX64 \/ dt = DT_COMPLEX128) /\
        tys = [dt] /\ env = {[ "T" := dt ]}.
Proof.
  destruct (Finalize InitialState_op) as [op|] eqn:Hop;
    [|rewrite Finalize_InitialState_op in Hop; discriminate].
  exists op. split; [rewrite LookUp_InitialState; exact Hop|].
  exact (TypeCheck_InitialState_iff op Hop).
Qed.

(** X6: each of the five gate operations accepts exactly the input lists
    (T, T, int32) with T complex64 or complex128. In particular the state
    and the gate must have the same precision, the controls must be int32,
    and there must be exactly three inputs. *)
Theorem gate_ops_accepted_inputs :
  Forall
    (fun NAME =>
       exists op,
         LookUp NAME = Some op /\
         forall (tys : list DataType) (env : gmap string DataType),
           TypeCheck op tys = inr env <->
           exists dt,
             (dt = DT_COMPLEX64 \/ dt = DT_COMPLEX128) /\
             tys = [dt; dt; DT_INT32] /\ env = {[ "T" := dt ]})
    gate_ops.
Proof.
  apply Forall_forall. intros NAME HNAME.
  rewrite (LookUp_gate NAME HNAME), Finalize_REGISTER_GATE_OP.
  eexists. split; [reflexivity|].
  intros tys env. unfold TypeCheck. simpl. split.
  - destruct tys as [|s [|g [|k [|x tys]]]]; simpl; try discriminate.
    + rewrite lookup_empty; simpl. rewrite lookup_insert_eq.
      case_decide; discriminate.
    + rewrite lookup_empty; simpl. rewrite lookup_insert_eq.
      case_decide as Hsg; [subst g|discriminate].
      case_decide as Hk; [subst k|discriminate].
      unfold attr_ok. simpl. rewrite lookup_insert_eq, andb_true_r.
      case_bool_decide as Hin; [|discriminate].
      intros [= <-]. exists s.
      rewrite !elem_of_cons, elem_of_nil in Hin.
      split; [tauto|]. split; [reflexivity|]. apply insert_empty.
    + rewrite lookup_empty; simpl. rewrite lookup_insert_eq.
      case_decide; [|discriminate]. case_decide; discriminate.
  - intros (dt & Hdt & -> & ->). simpl.
    rewrite lookup_empty; simpl. rewrite lookup_insert_eq.
    rewrite !decide_True by reflexivity.
    unfold attr_ok. simpl. rewrite lookup_insert_eq, andb_true_r.
    rewrite insert_empty.
    rewrite bool_decide_eq_true_2; [reflexivity|].
    rewrite !elem_of_cons. tauto.
Qed.

(** ** The operator registry *)



(** ** The kernel registry *)




(** At most one registration matches a lookup. *)
Lemma kernel_matches_unique
    (GOOGLE_CUDA : option Z) (name : string) (dev : DeviceType)
    (env : gmap string DataType) (k1 k2 : KernelRegistration) :
  k1 ∈ kernel_registrations GOOGLE_CUDA ->
  k2 ∈ kernel_registrations GOOGLE_CUDA ->
  kernel_matches name dev env k1 = true ->
  kernel_matches name dev env k2 = true ->
  k1 = k2.
Proof.
  intros H1 H2 M1 M2.
  unfold kernel_matches in M1, M2.
  apply andb_prop in M1 as [M1 C1]. apply andb_prop in M1 as [_ D1].
  apply andb_prop in M2 as [M2 C2]. apply andb_prop in M2 as [_ D2].
  apply bool_decide_eq_true in D1, C1, D2, C2.
  destruct GOOGLE_CUDA as [v|];
    [ rewrite kernel_registrations_cuda in H1, H2
    | rewrite kernel_registrations_no_cuda in H1, H2 ];
    rewrite !elem_of_cons, elem_of_nil in H1, H2;
    repeat (destruct H1 as [->|H1]); try (destruct H1);
    repeat (destruct H2 as [->|H2]); try (destruct H2);
    simpl in *; congruence.
Qed.

(** X9: kernel lookup is unambiguous. Whenever some registration matches
    the operator name, the device and the binding of T, it is the only one
    that does, so lookup finds exactly its kernel class and the order of
    the registrations plays no part. *)
Theorem FindKernel_finds_the_match
    (GOOGLE_CUDA : option Z) (name : string) (dev : DeviceType)
    (env : gmap string DataType) (k : KernelRegistration) :
  k ∈ kernel_registrations GOOGLE_CUDA ->
  kernel_matches name dev env k = true ->
  FindKernel GOOGLE_CUDA name dev env = Some (kernel_class k) /\
  forall k', k' ∈ kernel_registrations GOOGLE_CUDA ->
             kernel_matches name dev env k' = true -> k' = k.
Proof.
  intros Hin Hmatch. split.
  - unfold FindKernel.
    destruct (List.find _ _) as [r|] eqn:Hfind.
    + apply find_some in Hfind as [Hr Hrm]. apply list_elem_of_In in Hr.
      rewrite (kernel_matches_unique _ _ _ _ r k Hr Hin Hrm Hmatch).
      reflexivity.
    + apply list_elem_of_In in Hin.
      rewrite (find_none _ _ Hfind k Hin) in Hmatch. discriminate.
  - intros k' Hin' Hmatch'.
    exact (kernel_matches_unique _ _ _ _ k' k Hin' Hin Hmatch' Hmatch).
Qed.

Lemma FindKernel_finds_the_match_witness :
  let k := {| kernel_op := "InitialState"; kernel_device := DEVICE_GPU;
              kernel_constraint := ("T", DT_COMPLEX128);
              kernel_class := InitialStateOp_GPU complex128 |} in
  FindKernel (Some 1%Z) "InitialState" DEVICE_GPU {[ "T" := DT_COMPLEX128 ]}
  = Some (kernel_class k) /\
  forall k', k' ∈ kernel_registrations (Some 1%Z) ->
             kernel_matches "InitialState" DEVICE_GPU
               {[ "T" := DT_COMPLEX128 ]} k' = true -> k' = k.
Proof.
  apply (FindKernel_finds_the_match (Some 1%Z) "InitialState" DEVICE_GPU
           {[ "T" := DT_COMPLEX128 ]}
           {| kernel_op := "InitialState"; kernel_device := DEVICE_GPU;
              kernel_constraint := ("T", DT_COMPLEX128);
              kernel_class := InitialStateOp_GPU complex128 |});
    [ simpl; repeat constructor | reflexivity ].
Defined.

(** X10: the kernel registrations fit the operator registration. Every
    registered kernel is for an operator that is registered, constrains
    that operator's own type parameter, and constrains it to a type the
    operator allows; and every type InitialState accepts has a CPU kernel,
    so a type-checked invocation of InitialState on the CPU always finds
    its kernel. *)
Theorem kernel_registrations_fit_the_op :
  (forall GOOGLE_CUDA k,
     k ∈ kernel_registrations GOOGLE_CUDA ->
     exists op allowed,
       LookUp (kernel_op k) = Some op /\
       {| attr_name := fst (kernel_constraint k);
          attr_type := AttrDType (Some allowed) |} ∈ op_attr op /\
       snd (kernel_constraint k) ∈ allowed) /\
  (forall GOOGLE_CUDA op tys env,
     LookUp "InitialState" = Some op ->
     TypeCheck op tys = inr env ->
     exists T,
       tys = [DataTypeToEnum T] /\
       FindKernel GOOGLE_CUDA "InitialState" DEVICE_CPU env
       = Some (InitialStateOp_CPU T)).
Proof.
  split.
  - intros G k Hk.
    destruct G as [v|];
      [ rewrite kernel_registrations_cuda in Hk
      | rewrite kernel_registrations_no_cuda in Hk ];
      rewrite !elem_of_cons, elem_of_nil in Hk;
      repeat (destruct Hk as [->|Hk]); try (destruct Hk);
      simpl; rewrite LookUp_InitialState, Finalize_InitialState_op;
      (eexists _, _; split; [reflexivity|]; simpl;
       split; repeat constructor).
  - intros G op tys env Hop Hck.
    rewrite LookUp_InitialState in Hop.
    apply (TypeCheck_InitialState_iff op Hop) in Hck
      as (dt & [->| ->] & -> & ->).
    + exists complex64. split; [reflexivity|].
      exact (FindKernel_CPU G complex64).
    + exists complex128. split; [reflexivity|].
      exact (FindKernel_CPU G complex128).
Qed.

(** ** Invocations on the GPU *)


(** X12: the two preprocessor tests on GOOGLE_CUDA are not the same test.
    The GPU kernels are registered whenever the macro is defined, whatever
    its value; EIGEN_USE_GPU is defined only when the value is non-zero. So
    EIGEN_USE_GPU implies the GPU registrations, but with GOOGLE_CUDA
    defined as 0 the GPU kernels are registered without it. *)
Theorem GOOGLE_CUDA_tests_differ :
  (forall GOOGLE_CUDA T,
     EIGEN_USE_GPU GOOGLE_CUDA = true ->
     REGISTER_GPU T ⊆ kernel_registrations GOOGLE_CUDA) /\
  (forall v, kernel_registrations (Some v) = kernel_registrations (Some 1%Z)) /\
  (forall T, REGISTER_GPU T ⊆ kernel_registrations (Some 0%Z)) /\
  EIGEN_USE_GPU (Some 0%Z) = false /\
  (forall T k, k ∈ REGISTER_GPU T -> k ∉ kernel_registrations None).
Proof.
  assert (forall v T, REGISTER_GPU T ⊆ kernel_registrations (Some v)) as Hgpu.
  { intros v T k Hk. rewrite kernel_registrations_cuda.
    unfold REGISTER_GPU in Hk. apply list_elem_of_singleton in Hk as ->.
    destruct T; simpl; repeat constructor. }
  split; [|split; [|split; [|split]]].
  - intros [v|] T Hdef; [apply Hgpu | discriminate Hdef].
  - reflexivity.
  - apply Hgpu.
  - reflexivity.
  - intros T k Hk. rewrite kernel_registrations_no_cuda.
    unfold REGISTER_GPU in Hk. apply list_elem_of_singleton in Hk as ->.
    rewrite !elem_of_cons, elem_of_nil. destruct T; intros [|[|[]]]; discriminate.
Qed.

(** ** The shape function on any inference context *)

(** The shape lambda, case by case. *)
Lemma shape_lambda_cases (c : shape_inference.InferenceContext) :
  (s0 <- shape_inference.input 0 ;;
   (shape_inference.set_output 0 s0 ;;; ret OK)) c
  = match shape_inference.inputs_ c !! 0 with
    | Some s =>
        if decide (0 < length (shape_inference.outputs_ c))
        then inr (OK, {| shape_inference.inputs_ := shape_inference.inputs_ c;
                         shape_inference.outputs_ :=
                           <[0 := s]> (shape_inference.outputs_ c) |})
        else inl OutOfBounds
    | None => inl OutOfBounds
    end.
Proof.
  unfold bind, shape_inference.input, shape_inference.set_output, ret.
  destruct (shape_inference.inputs_ c !! 0); [|reflexivity].
  destruct (decide _); reflexivity.
Qed.

(** X13: the shape function of every registered operation, on any
    inference context. It never returns an error status. When it returns,
    the inputs are unchanged, output 0 holds the shape of input 0 (known
    or unknown), every other output slot is untouched, and running it
    again changes nothing. It faults, out of bounds, exactly when the
    context has no input or no output slot. *)
Theorem shape_fn_on_any_context :
  Forall
    (fun name =>
       exists op fn,
         LookUp name = Some op /\
         shape_fn op = Some fn /\
         forall c : shape_inference.InferenceContext,
           (forall st c',
              fn c = inr (st, c') ->
              st = OK /\
              shape_inference.inputs_ c' = shape_inference.inputs_ c /\
              length (shape_inference.outputs_ c')
              = length (shape_inference.outputs_ c) /\
              shape_inference.outputs_ c' !! 0
              = shape_inference.inputs_ c !! 0 /\
              (forall i, 0 < i ->
                 shape_inference.outputs_ c' !! i
                 = shape_inference.outputs_ c !! i) /\
              fn c' = inr (OK, c')) /\
           (forall f,
              fn c = inl f <->
              f = OutOfBounds /\
              (shape_inference.inputs_ c = [] \/
               shape_inference.outputs_ c = [])))
    registered_names.
Proof.
  assert (forall c : shape_inference.InferenceContext,
            let fn := (s0 <- shape_inference.input 0 ;;
                       (shape_inference.set_output 0 s0 ;;; ret OK)) in
            (forall st c',
               fn c = inr (st, c') ->
               st = OK /\
               shape_inference.inputs_ c' = shape_inference.inputs_ c /\
               length (shape_inference.outputs_ c')
               = length (shape_inference.outputs_ c) /\
               shape_inference.outputs_ c' !! 0
               = shape_inference.inputs_ c !! 0 /\
               (forall i, 0 < i ->
                  shape_inference.outputs_ c' !! i
                  = shape_inference.outputs_ c !! i) /\
               fn c' = inr (OK, c')) /\
            (forall f,
               fn c = inl f <->
               f = OutOfBounds /\
               (shape_inference.inputs_ c = [] \/
                shape_inference.outputs_ c = []))) as Hfn.
  { intros [ins outs] fn. subst fn. split.
    - intros st c'. rewrite shape_lambda_cases. simpl.
      destruct ins as [|s ins]; [discriminate|]. simpl.
      destruct (decide (0 < length outs)) as [Hout|]; [|discriminate].
      intros [= <- <-]. simpl.
      split; [reflexivity|]. split; [reflexivity|].
      split; [apply length_insert|].
      split; [apply list_lookup_insert_eq, Hout|].
      split; [intros i Hi; apply list_lookup_insert_ne; lia|].
      rewrite shape_lambda_cases. simpl.
      rewrite length_insert.
      destruct (decide (0 < length outs)); [|lia].
      rewrite list_insert_insert_eq. reflexivity.
    - intros f. rewrite shape_lambda_cases. simpl.
      destruct ins as [|s ins]; simpl.
      + split; [intros [= <-]; auto | intros [-> _]; reflexivity].
      + destruct outs as [|o outs]; simpl.
        * split; [intros [= <-]; auto | intros [-> _]; reflexivity].
        * split; [discriminate | intros [_ [?|?]]; discriminate]. }
  repeat constructor;
    (eexists _, _; split; [reflexivity|]; split; [reflexivity|]; exact Hfn).
Qed.
